(** * Hangman: the game-state engine (gameLogic.py) and the word bank
      (wordBank.py), shallowly embedded.

    Text is modelled as ASCII: a Python [str] is a [string], one of its
    characters an [ascii]; [str.lower] and [str.isalpha] are their ASCII
    behaviour.  Python [int]s are [Z].  The [set] of used letters is a
    [gset ascii] (every element the engine ever inserts is a one-character
    string).  [random.choice] is an injected function from the candidate
    sequence to one of its elements. *)

From stdpp Require Import base gmap strings list.
From Stdlib Require Import Ascii String ZArith.

Open Scope Z_scope.

(* ------------------------------------------------------------------ *)
(** ** Python string helpers (ASCII) *)

Module PyStr.

Definition is_upper (c : ascii) : bool :=
  let n := nat_of_ascii c in (65 <=? n)%nat && (n <=? 90)%nat.

Definition is_lower (c : ascii) : bool :=
  let n := nat_of_ascii c in (97 <=? n)%nat && (n <=? 122)%nat.

(** [c.isalpha()] for a one-character string. *)
Definition char_isalpha (c : ascii) : bool := is_upper c || is_lower c.

(** [c.lower()] for a one-character string. *)
Definition char_lower (c : ascii) : ascii :=
  if is_upper c then ascii_of_nat (nat_of_ascii c + 32) else c.

(** [s.lower()] *)
Fixpoint lower (s : string) : string :=
  match s with
  | EmptyString => EmptyString
  | String c s' => String (char_lower c) (lower s')
  end.

Fixpoint all_alpha (s : string) : bool :=
  match s with
  | EmptyString => true
  | String c s' => char_isalpha c && all_alpha s'
  end.

(** [s.isalpha()]: non-empty and every character alphabetic. *)
Definition isalpha (s : string) : bool :=
  match s with
  | EmptyString => false
  | _ => all_alpha s
  end.

(** [c in s] for a one-character string [c]. *)
Fixpoint contains_char (c : ascii) (s : string) : bool :=
  match s with
  | EmptyString => false
  | String d s' => bool_decide (c = d) || contains_char c s'
  end.

End PyStr.

Import PyStr.

(* ------------------------------------------------------------------ *)
(** ** gameLogic.py *)

Definition DEFAULT_MAX_ATTEMPTS : Z := 6.
Definition HINT_COST : Z := 2.
Definition AUTO_REVEAL_LETTERS : list ascii := ["r"; "s"; "t"; "l"; "n"; "e"]%char.

Record HangmanGame := mkGame {
  secret_word : string;
  max_attempts : Z;
  used_letters : gset ascii;
  wrong_guesses : Z
}.

Definition set_used (g : HangmanGame) (u : gset ascii) : HangmanGame :=
  mkGame (secret_word g) (max_attempts g) u (wrong_guesses g).

(** [_autoRevealCommonLetters]: [for letter in AUTO_REVEAL_LETTERS:
    self.used_letters.add(letter)] *)
Definition _autoRevealCommonLetters (g : HangmanGame) : HangmanGame :=
  set_used g (foldl (fun u l => {[l]} ∪ u) (used_letters g) AUTO_REVEAL_LETTERS).

(** [HangmanGame(secret_word, max_attempts)] *)
Definition newGame (secret_word : string) (max_attempts : Z) : HangmanGame :=
  _autoRevealCommonLetters (mkGame (lower secret_word) max_attempts ∅ 0).

(** [resetGame]: lowercase the new word, [used_letters.clear()],
    zero the counter, re-apply the bonus; [max_attempts] is kept. *)
Definition resetGame (new_secret_word : string) (g : HangmanGame) : HangmanGame :=
  _autoRevealCommonLetters
    (mkGame (lower new_secret_word) (max_attempts g) ∅ 0).

Definition mask_char (used : gset ascii) (letter : ascii) : string :=
  if bool_decide (letter ∈ used) then String letter EmptyString else "_".

(** [getMaskedWord]: [" ".join(letter if letter in used_letters else "_"
    for letter in secret_word)] *)
Definition getMaskedWord (g : HangmanGame) : string :=
  String.concat " "
    (map (mask_char (used_letters g)) (list_ascii_of_string (secret_word g))).

(** [processGuess] returns the boolean and the updated object. *)
Definition processGuess (letter : string) (g : HangmanGame) : bool * HangmanGame :=
  let letter := lower letter in
  if negb (isalpha letter) || negb (String.length letter =? 1)%nat then (false, g)
  else
    match letter with
    | String c EmptyString =>
        if bool_decide (c ∈ used_letters g) then (false, g)
        else
          let g1 := set_used g ({[c]} ∪ used_letters g) in
          if negb (contains_char c (secret_word g1)) then
            (false, mkGame (secret_word g1) (max_attempts g1)
                           (used_letters g1) (wrong_guesses g1 + 1))
          else (true, g1)
    | _ => (false, g) (* not reached: the length is 1 here *)
    end.

(** [unguessed = [char for char in secret_word
                   if char not in used_letters and char.isalpha()]] *)
Definition hintPool (g : HangmanGame) : list ascii :=
  List.filter (fun c => negb (bool_decide (c ∈ used_letters g)) && char_isalpha c)
    (list_ascii_of_string (secret_word g)).

(** [isWon]: [all(letter in used_letters for letter in secret_word)] *)
Definition isWon (g : HangmanGame) : bool :=
  forallb (fun letter => bool_decide (letter ∈ used_letters g))
    (list_ascii_of_string (secret_word g)).

Definition isLost (g : HangmanGame) : bool := max_attempts g <=? wrong_guesses g.

Definition isFinished (g : HangmanGame) : bool := isWon g || isLost g.

Section Engine.

(** [random.choice], the randomness collaborator. *)
Variable choice : list ascii -> ascii.

(** [useHint] *)
Definition useHint (g : HangmanGame) : option ascii * HangmanGame :=
  let remaining_attempts := max_attempts g - wrong_guesses g in
  if remaining_attempts <? HINT_COST then (None, g)
  else
    let unguessed := hintPool g in
    match unguessed with
    | [] => (None, g)
    | _ =>
        let letter_to_reveal := choice unguessed in
        let g1 := set_used g ({[letter_to_reveal]} ∪ used_letters g) in
        (Some letter_to_reveal,
         mkGame (secret_word g1) (max_attempts g1) (used_letters g1)
                (wrong_guesses g1 + HINT_COST))
    end.

(** The calls a presentation layer makes on one engine object. *)
Inductive call :=
  | Guess (letter : string)
  | Hint
  | MaskedWord
  | IsWon
  | IsLost
  | IsFinished
  | Reset (new_secret_word : string).

Inductive answer :=
  | ABool (b : bool)
  | ALetter (o : option ascii)
  | AStr (s : string)
  | AUnit.

Definition exec (c : call) (g : HangmanGame) : answer * HangmanGame :=
  match c with
  | Guess l => let '(b, g') := processGuess l g in (ABool b, g')
  | Hint => let '(o, g') := useHint g in (ALetter o, g')
  | MaskedWord => (AStr (getMaskedWord g), g)
  | IsWon => (ABool (isWon g), g)
  | IsLost => (ABool (isLost g), g)
  | IsFinished => (ABool (isFinished g), g)
  | Reset w => (AUnit, resetGame w g)
  end.

Fixpoint run (cs : list call) (g : HangmanGame) : HangmanGame :=
  match cs with
  | [] => g
  | c :: cs' => run cs' (snd (exec c g))
  end.

Definition is_reset (c : call) : bool :=
  match c with Reset _ => true | _ => false end.

(** States reachable from construction or a reset by guesses and hints. *)
Inductive reachable : HangmanGame -> Prop :=
  | reach_new w m : reachable (newGame w m)
  | reach_reset w g : reachable g -> reachable (resetGame w g)
  | reach_guess l g : reachable g -> reachable (snd (processGuess l g))
  | reach_hint g : reachable g -> reachable (snd (useHint g)).

End Engine.

(* ------------------------------------------------------------------ *)
(** ** wordBank.py *)

Definition DEFAULT_CATEGORY : string := "general".

(** [ValueError(msg)] *)
Inductive exn := ValueError (msg : string).

Inductive result (A : Type) := Ok (a : A) | Err (e : exn).
Arguments Ok {A} a.
Arguments Err {A} e.

(** The dictionary built by [_initializeDefaultCategories]. *)
Definition default_categories : gmap string (list string) :=
  list_to_map [
    ("general", ["python"; "hangman"; "developer"; "keyboard"; "algorithm"; "variable"; "database"; "interface"; "framework"; "encryption"]);
    ("animals", ["elephant"; "giraffe"; "kangaroo"; "alligator"; "platypus"; "rhinoceros"; "penguin"; "cheetah"; "dolphin"; "octopus"]);
    ("fruits", ["banana"; "strawberry"; "pineapple"; "watermelon"; "blueberry"; "pomegranate"; "mango"; "kiwi"; "coconut"; "papaya"]);
    ("movies", ["inception"; "gladiator"; "titanic"; "avatar"; "matrix"; "godfather"; "interstellar"; "joker"; "parasite"; "dune"]);
    ("countries", ["australia"; "brazil"; "canada"; "denmark"; "egypt"; "france"; "japan"; "mexico"; "norway"; "portugal"]);
    ("science", ["physics"; "chemistry"; "biology"; "astronomy"; "quantum"; "gravity"; "evolution"; "molecule"; "ecosystem"; "hypothesis"]);
    ("winter 2025", ["blizzard"; "snowflake"; "hibernate"; "avalanche"; "frostbite"; "snowstorm"; "icicle"; "reindeer"; "polar"; "solstice"]);
    ("minecraft", ["creeper"; "diamond"; "crafting"; "redstone"; "zombie"; "steve"; "enderman"; "nether"; "obsidian"; "enchantment"]);
    ("among us", ["impostor"; "suspect"; "vent"; "emergency"; "crewmate"; "sabotage"; "medbay"; "reactor"; "oxygen"; "electrical"]);
    ("fortnite", ["battle"; "victory"; "chug"; "storm"; "island"; "building"; "zero"; "marvel"; "legendary"; "supply"]);
    ("coding", ["boolean"; "function"; "variable"; "debug"; "syntax"; "compile"; "recursion"; "iteration"; "polymorphism"; "abstraction"]);
    ("space", ["galaxy"; "nebula"; "astronaut"; "telescope"; "planet"; "asteroid"; "cosmos"; "satellite"; "meteor"; "universe"]);
    ("superheroes", ["thor"; "wonder"; "batman"; "superman"; "hulk"; "widow"; "panther"; "vision"; "quicksilver"; "antman"]);
    ("fantasy", ["dragon"; "wizard"; "kingdom"; "sorcery"; "potion"; "unicorn"; "dungeon"; "phoenix"; "troll"; "enchanted"]);
    ("ocean", ["submarine"; "coral"; "shipwreck"; "treasure"; "hurricane"; "lighthouse"; "buoy"; "tsunami"; "whale"; "dolphin"])
  ].

(** [getWordsForCategory] on the dictionary [categories]. *)
Definition getWordsForCategory (categories : gmap string (list string))
    (category_name : string) : list string :=
  let category_name :=
    match categories !! category_name with
    | Some _ => category_name
    | None => DEFAULT_CATEGORY
    end in
  default [] (categories !! category_name).

Section WordSource.

(** [random.choice] on a word list. *)
Variable word_choice : list string -> string.

(** [getRandomWord]: the error message uses the name passed in. *)
Definition getRandomWord (categories : gmap string (list string))
    (category_name : string) : result string :=
  let words := getWordsForCategory categories category_name in
  match words with
  | [] => Err (ValueError ("No words available for category '" ++ category_name ++ "'"))
  | _ => Ok (word_choice words)
  end.

End WordSource.

(* ------------------------------------------------------------------ *)
(** ** main.py *)

(** [createGameInstance]: the factory [main] hands to the front ends. *)
Definition createGameInstance (secret_word : string) : HangmanGame :=
  newGame secret_word DEFAULT_MAX_ATTEMPTS.

(* ------------------------------------------------------------------ *)
(** ** ioCli.py *)

(** The ASCII whitespace [str.strip()] removes: space, \t \n \v \f \r. *)
Definition is_space (c : ascii) : bool :=
  let n := nat_of_ascii c in (n =? 32)%nat || ((9 <=? n)%nat && (n <=? 13)%nat).

Fixpoint drop_spaces (l : list ascii) : list ascii :=
  match l with
  | [] => []
  | c :: l' => if is_space c then drop_spaces l' else l
  end.

(** [s.strip()] *)
Definition strip (s : string) : string :=
  string_of_list_ascii (rev (drop_spaces (rev (drop_spaces (list_ascii_of_string s))))).

(** [HangmanCli.__init__]: [game_factory(word_bank.getRandomWord(DEFAULT_CATEGORY))];
    the [ValueError] of an empty category propagates. *)
Definition HangmanCli_init (game_factory : string -> HangmanGame)
    (word_choice : list string -> string)
    (categories : gmap string (list string)) : result HangmanGame :=
  match getRandomWord word_choice categories DEFAULT_CATEGORY with
  | Ok w => Ok (game_factory w)
  | Err e => Err e
  end.

(** [runGameLoop], fed the lines [input()] returns: while the game is not
    finished, [processGuess(input(...).strip())]; then the closing line.
    [None] is [input()] running out of lines (EOFError) first. *)
Fixpoint runGameLoop (inputs : list string) (g : HangmanGame)
    : option (HangmanGame * string) :=
  if isFinished g then
    Some (g, if isWon g then ("You won! The word was: " ++ secret_word g)%string
             else ("You lost! The word was: " ++ secret_word g)%string)
  else
    match inputs with
    | [] => None
    | guess :: rest => runGameLoop rest (snd (processGuess (strip guess) g))
    end.

(* ------------------------------------------------------------------ *)
(** ** uiTkinter.py: the game control of [HangmanApp] *)

(** The part of the window's state the handlers read and write: the
    current game object (or [None] before the first round) and the score.
    Labels, buttons, the canvas and message boxes are display only. *)
Record HangmanApp := mkApp {
  app_game : option HangmanGame;
  score : Z
}.

(** [s in self.game.used_letters] for a string [s]: the set holds
    one-character strings only. *)
Definition str_in_used (s : string) (used : gset ascii) : bool :=
  match s with
  | String c EmptyString => bool_decide (c ∈ used)
  | _ => false
  end.

(** [_handleWin]'s [points]. *)
Definition win_points (g : HangmanGame) : Z :=
  (max_attempts g - wrong_guesses g) * Z.of_nat (String.length (secret_word g)).

(** [_refreshUiAfterAction]: on a win, [_handleWin] adds the points to the
    score; on a loss [_handleLoss] changes no state of the model. *)
Definition _refreshUiAfterAction (a : HangmanApp) : HangmanApp :=
  match app_game a with
  | None => a
  | Some g => if isWon g then mkApp (Some g) (score a + win_points g) else a
  end.

(** [_onGuess] *)
Definition _onGuess (letter : string) (a : HangmanApp) : HangmanApp :=
  match app_game a with
  | None => a
  | Some g =>
      if isFinished g then a
      else if str_in_used (lower letter) (used_letters g) then a
      else
        let '(_, g') := processGuess letter g in
        _refreshUiAfterAction (mkApp (Some g') (score a))
  end.

(** [_onHintButtonClicked]; a revealed letter is a non-empty string, so it
    is truthy exactly when [useHint] returns one. *)
Definition _onHintButtonClicked (choice : list ascii -> ascii) (a : HangmanApp)
    : HangmanApp :=
  match app_game a with
  | None => a
  | Some g =>
      if isFinished g then a
      else
        match useHint choice g with
        | (Some _, g') => _refreshUiAfterAction (mkApp (Some g') (score a))
        | (None, g') => mkApp (Some g') (score a)
        end
  end.

(* ------------------------------------------------------------------ *)
(** ** Vocabulary of the specification *)

(** The lowercased input is exactly one alphabetic character. *)
Definition single_alpha (s : string) : option ascii :=
  match s with
  | String c EmptyString => if char_isalpha c then Some c else None
  | _ => None
  end.

(** The change of [wrong_guesses] a call should make: 1 for a guess of a
    new letter absent from the word, [HINT_COST] for a hint that returns
    a letter, nothing otherwise. *)
Definition wrong_delta (choice : list ascii -> ascii) (c : call)
    (g : HangmanGame) : Z :=
  match c with
  | Guess l =>
      match single_alpha (lower l) with
      | Some x =>
          if bool_decide ((x ∉ used_letters g) /\
                          (x ∉ list_ascii_of_string (secret_word g)))
          then 1 else 0
      | None => 0
      end
  | Hint => match fst (useHint choice g) with Some _ => HINT_COST | None => 0 end
  | _ => 0
  end.

(** A deterministic stand-in for [random.choice] (what the tests patch in):
    the first element. *)
Definition pick_first {A} (d : A) (l : list A) : A := hd d l.

(* ================================================================== *)
(** * Lemmas *)

Lemma pick_first_in {A} (d : A) (l : list A) : l <> [] -> In (pick_first d l) l.
Proof. destruct l; simpl; [congruence | auto]. Qed.

Lemma guess_check_false (s : string) :
  (negb (isalpha s) || negb (String.length s =? 1)%nat) = false <->
  exists c, s = String c EmptyString /\ char_isalpha c = true.
Proof.
  split.
  - destruct s as [|c [|d s]]; simpl; try discriminate.
    + rewrite andb_true_r. destruct (char_isalpha c) eqn:E; simpl; [eauto | discriminate].
    + rewrite orb_true_r. discriminate.
  - intros (c & -> & Hc). simpl. rewrite Hc. reflexivity.
Qed.

Lemma single_alpha_Some (s : string) (c : ascii) :
  single_alpha s = Some c <-> s = String c EmptyString /\ char_isalpha c = true.
Proof.
  split.
  - destruct s as [|d [|e s]]; simpl; try discriminate.
    destruct (char_isalpha d) eqn:E; intros H; inversion H; subst; auto.
  - intros [-> Hc]. simpl. rewrite Hc. reflexivity.
Qed.

Lemma single_alpha_None (s : string) :
  single_alpha s = None <->
  (negb (isalpha s) || negb (String.length s =? 1)%nat) = true.
Proof.
  destruct s as [|d [|e s]]; simpl; try (split; reflexivity).
  rewrite andb_true_r. destruct (char_isalpha d); simpl; split; congruence.
  rewrite orb_true_r. destruct (char_isalpha d); split; reflexivity.
Qed.

Lemma contains_char_In (c : ascii) (s : string) :
  contains_char c s = true <-> In c (list_ascii_of_string s).
Proof.
  induction s as [|d s IH]; simpl.
  - split; [discriminate | tauto].
  - rewrite orb_true_iff, IH, bool_decide_eq_true. intuition congruence.
Qed.

Lemma hintPool_In (g : HangmanGame) (c : ascii) :
  In c (hintPool g) <->
  In c (list_ascii_of_string (secret_word g)) /\ (c ∉ used_letters g) /\
  char_isalpha c = true.
Proof.
  unfold hintPool. rewrite filter_In, andb_true_iff, negb_true_iff,
    bool_decide_eq_false. tauto.
Qed.

Lemma hintPool_nil (g : HangmanGame) :
  hintPool g = [] <->
  (forall c, In c (list_ascii_of_string (secret_word g)) ->
             char_isalpha c = true -> c ∈ used_letters g).
Proof.
  split.
  - intros H c Hin Ha. destruct (decide (c ∈ used_letters g)) as [|Hn]; [done|].
    assert (In c (hintPool g)) as Hp by (apply hintPool_In; auto).
    rewrite H in Hp. destruct Hp.
  - intros H. destruct (hintPool g) as [|c l] eqn:E; [done|].
    assert (In c (hintPool g)) as Hp by (rewrite E; left; done).
    apply hintPool_In in Hp as (Hin & Hn & Ha). exfalso. eauto.
Qed.

(* ================================================================== *)
(** * Claims about [useHint] *)

(** C3: [useHint] returns [None] exactly when fewer than [HINT_COST]
    attempts remain or every alphabetic character of the secret word is
    already used, and then the object (word, budget, used letters, wrong
    guesses) is unchanged. *)
Theorem useHint_none_iff (choice : list ascii -> ascii) (g : HangmanGame) :
  (fst (useHint choice g) = None <->
     max_attempts g - wrong_guesses g < HINT_COST \/
     (forall c, In c (list_ascii_of_string (secret_word g)) ->
                char_isalpha c = true -> c ∈ used_letters g)) /\
  (fst (useHint choice g) = None -> snd (useHint choice g) = g).
Proof.
  rewrite <- hintPool_nil. unfold useHint.
  destruct (Z.ltb_spec (max_attempts g - wrong_guesses g) HINT_COST) as [Hlt|Hge].
  - simpl. tauto.
  - destruct (hintPool g) as [|c l] eqn:E; simpl.
    + tauto.
    + split; [split; [discriminate | intros [H|H]; [lia | discriminate]] | discriminate].
Qed.

Section HintChoice.

Variable choice : list ascii -> ascii.
Hypothesis choice_in : forall l, l <> [] -> In (choice l) l.

(** C4: a hint that returns a letter returns an alphabetic character of
    the secret word that was not used before; afterwards it is used,
    [wrong_guesses] has grown by exactly 2 and the word and budget are
    unchanged. *)
Theorem useHint_some_spec (g g' : HangmanGame) (l : ascii) :
  useHint choice g = (Some l, g') ->
  char_isalpha l = true /\ In l (list_ascii_of_string (secret_word g)) /\
  (l ∉ used_letters g) /\ (l ∈ used_letters g') /\
  wrong_guesses g' = wrong_guesses g + 2 /\
  secret_word g' = secret_word g /\ max_attempts g' = max_attempts g.
Proof.
  unfold useHint.
  destruct (Z.ltb_spec (max_attempts g - wrong_guesses g) HINT_COST); [discriminate|].
  destruct (hintPool g) as [|c p] eqn:E; [discriminate|].
  intros Heq. inversion Heq; subst; clear Heq. simpl.
  assert (In (choice (c :: p)) (hintPool g)) as Hin
    by (rewrite E; apply choice_in; discriminate).
  apply hintPool_In in Hin as (Hs & Hn & Ha).
  repeat split; auto. set_solver.
Qed.

End HintChoice.

(** C2 (as stated, refuted): for the secret word "jazz" the sequence handed
    to [random.choice] is [j; a; z; z]; it has a duplicate, and a uniform
    choice over it takes [z] at two of four positions and [j] at one. *)
Lemma useHint_pool_jazz_has_duplicates :
  (forall choice : list ascii -> ascii,
     fst (useHint choice (newGame "jazz" 6)) = Some (choice ["j"; "a"; "z"; "z"]%char)) /\
  ~ NoDup ["j"; "a"; "z"; "z"]%char /\
  count_occ ascii_dec ["j"; "a"; "z"; "z"]%char "z"%char = 2%nat /\
  count_occ ascii_dec ["j"; "a"; "z"; "z"]%char "j"%char = 1%nat.
Proof.
  split; [intros choice; reflexivity|].
  split; [|split; reflexivity].
  rewrite !NoDup_cons. set_solver.
Qed.

Lemma count_occ_hintPool (g : HangmanGame) (c : ascii) :
  count_occ ascii_dec (hintPool g) c =
  if negb (bool_decide (c ∈ used_letters g)) && char_isalpha c
  then count_occ ascii_dec (list_ascii_of_string (secret_word g)) c else 0%nat.
Proof.
  unfold hintPool. generalize (list_ascii_of_string (secret_word g)) as cs.
  induction cs as [|d cs IH]; simpl.
  - destruct (_ && _); reflexivity.
  - destruct (negb (bool_decide (d ∈ used_letters g)) && char_isalpha d) eqn:Ed; simpl;
      destruct (ascii_dec d c) as [->|Hne]; rewrite IH; try rewrite Ed; auto.
Qed.

(** C2 (amended): a hint that returns a letter returns [choice] applied to
    the characters of the secret word, in order and with their repetitions,
    that are alphabetic and not yet used: each such letter occurs in that
    sequence as often as in the word, every other character not at all. *)
Theorem useHint_choice_pool (choice : list ascii -> ascii)
    (g g' : HangmanGame) (l : ascii) :
  useHint choice g = (Some l, g') ->
  l = choice (hintPool g) /\ hintPool g <> [] /\
  (forall c, count_occ ascii_dec (hintPool g) c =
     if negb (bool_decide (c ∈ used_letters g)) && char_isalpha c
     then count_occ ascii_dec (list_ascii_of_string (secret_word g)) c else 0%nat).
Proof.
  unfold useHint.
  destruct (Z.ltb_spec (max_attempts g - wrong_guesses g) HINT_COST); [discriminate|].
  destruct (hintPool g) as [|c p] eqn:E; [discriminate|].
  intros Heq. inversion Heq; subst; clear Heq.
  split; [reflexivity|]. split; [discriminate|].
  intros c'. rewrite <- E. apply count_occ_hintPool.
Qed.

(* ================================================================== *)
(** * Claims about [processGuess] *)

(** C5: a guess whose lowercased input is not exactly one alphabetic
    character, or is a used letter, returns [false] and changes nothing;
    repeating any guess right away returns [false] and changes nothing. *)
Theorem processGuess_noop (letter : string) (g : HangmanGame) :
  (single_alpha (lower letter) = None \/
   (exists c, single_alpha (lower letter) = Some c /\ c ∈ used_letters g) ->
   processGuess letter g = (false, g)) /\
  processGuess letter (snd (processGuess letter g)) =
    (false, snd (processGuess letter g)).
Proof.
  unfold processGuess. cbv beta zeta.
  destruct (negb (isalpha (lower letter)) || negb (String.length (lower letter) =? 1)%nat)
    eqn:Echeck.
  - split; reflexivity.
  - apply guess_check_false in Echeck as (c & Hc & Ha). rewrite Hc.
    assert (single_alpha (lower letter) = Some c) as Hs
      by (apply single_alpha_Some; auto).
    rewrite Hc in Hs. split.
    + intros [Hn | (c' & Hc' & Hin)]; [congruence|].
      rewrite Hs in Hc'. inversion Hc'; subst.
      rewrite bool_decide_eq_true_2 by done. reflexivity.
    + destruct (bool_decide (c ∈ used_letters g)) eqn:Eu; cbn [snd].
      * rewrite Eu. reflexivity.
      * unfold set_used; cbn [secret_word max_attempts used_letters wrong_guesses].
        destruct (negb (contains_char c (secret_word g))); cbn [snd used_letters];
          rewrite bool_decide_eq_true_2 by set_solver; reflexivity.
Qed.

(* ================================================================== *)
(** * Claims about [resetGame] *)

(** C6: [resetGame w] leaves exactly the object [HangmanGame(w,
    max_attempts)] builds: word [w.lower()], no wrong guesses, and the used
    letters exactly r, s, t, l, n, e. *)
Theorem resetGame_is_fresh (w : string) (g : HangmanGame) :
  resetGame w g = newGame w (max_attempts g) /\
  secret_word (resetGame w g) = lower w /\
  wrong_guesses (resetGame w g) = 0 /\
  used_letters (resetGame w g) =
    ({["r"%char]} ∪ {["s"%char]} ∪ {["t"%char]} ∪ {["l"%char]} ∪
     {["n"%char]} ∪ {["e"%char]} : gset ascii).
Proof.
  split; [reflexivity|]. split; [reflexivity|]. split; [reflexivity|].
  vm_compute. reflexivity.
Qed.

(* ================================================================== *)
(** * Claims about [isWon] *)

(** C1 (failing input): for [HangmanGame("test1")] every alphabetic
    character of the word is used, yet [isWon()] is false, because the
    digit counts. *)
Theorem isWon_test1_digit_blocks :
  (forall c, In c (list_ascii_of_string (secret_word (newGame "test1" 6))) ->
             char_isalpha c = true -> c ∈ used_letters (newGame "test1" 6)) /\
  isWon (newGame "test1" 6) = false.
Proof.
  split; [|reflexivity].
  intros c Hin Ha. vm_compute in Hin.
  repeat (destruct Hin as [<-|Hin]; [vm_compute; set_solver|]).
  destruct Hin.
Qed.

(* ================================================================== *)
(** * Claims about [getMaskedWord] *)

Section Join.
Local Open Scope nat_scope.

(** [" ".join] of one-character strings puts the i-th one at position
    [2 i] and a space at every odd position. *)
Lemma join_singletons (f : ascii -> ascii) (cs : list ascii) :
  let m := String.concat " " (map (fun c => String (f c) EmptyString) cs) in
  String.length m = 2 * List.length cs - 1 /\
  (forall i c, nth_error cs i = Some c -> String.get (2 * i) m = Some (f c)) /\
  (forall i, i + 1 < List.length cs -> String.get (2 * i + 1) m = Some " "%char).
Proof.
  induction cs as [|a cs IH]; cbv zeta.
  - split; [reflexivity|]. split; [intros [] ? ?; discriminate | simpl; intros; lia].
  - destruct cs as [|b cs'].
    + split; [reflexivity|]. split.
      * intros [|i] c H; simpl in H; [inversion H; reflexivity | destruct i; discriminate].
      * simpl; intros; lia.
    + destruct IH as (IHl & IHg & IHs).
      change (String.concat " " (map (fun c => String (f c) EmptyString) (a :: b :: cs')))
        with (String (f a) (String " " (String.concat " "
                (map (fun c => String (f c) EmptyString) (b :: cs'))))).
      revert IHl IHg IHs.
      generalize (String.concat " " (map (fun c => String (f c) EmptyString) (b :: cs'))).
      intros rest IHl IHg IHs. split; [|split].
      * cbn [String.length]. cbn [List.length] in *. lia.
      * intros [|i] c H; [simpl in H; inversion H; reflexivity|].
        replace (2 * S i) with (S (S (2 * i))) by lia. cbn. apply IHg. exact H.
      * intros [|i] H; [reflexivity|].
        replace (2 * S i + 1) with (S (S (2 * i + 1))) by lia. cbn.
        apply IHs. cbn [List.length] in *. lia.
Qed.

End Join.

Lemma mask_char_single (used : gset ascii) (c : ascii) :
  mask_char used c =
  String (if bool_decide (c ∈ used) then c else "_"%char) EmptyString.
Proof. unfold mask_char. destruct (bool_decide _); reflexivity. Qed.

(** C7: the masked word has, at position [2 i], the i-th character of the
    secret word when it is used and ['_'] otherwise, a single space between
    consecutive ones and nothing else; the query leaves the object as it
    is; for "hangman" right after construction it is ["_ _ n _ _ _ n"]. *)
Theorem getMaskedWord_spec (choice : list ascii -> ascii) (g : HangmanGame) :
  let cs := list_ascii_of_string (secret_word g) in
  let m := getMaskedWord g in
  String.length m = (2 * List.length cs - 1)%nat /\
  (forall i c, nth_error cs i = Some c ->
     String.get (2 * i) m =
       Some (if bool_decide (c ∈ used_letters g) then c else "_"%char)) /\
  (forall i, (i + 1 < List.length cs)%nat -> String.get (2 * i + 1) m = Some " "%char) /\
  exec choice MaskedWord g = (AStr m, g) /\
  getMaskedWord (newGame "hangman" 6) = "_ _ n _ _ _ n".
Proof.
  cbv zeta. unfold getMaskedWord.
  rewrite (map_ext _ (fun c => String (if bool_decide (c ∈ used_letters g) then c else "_"%char)
                                      EmptyString))
    by apply mask_char_single.
  destruct (join_singletons (fun c => if bool_decide (c ∈ used_letters g) then c else "_"%char)
              (list_ascii_of_string (secret_word g))) as (Hl & Hg & Hs).
  split; [exact Hl|]. split; [exact Hg|]. split; [exact Hs|].
  split; [|vm_compute; reflexivity].
  unfold exec, getMaskedWord.
  rewrite (map_ext _ (fun c => String (if bool_decide (c ∈ used_letters g) then c else "_"%char)
                                      EmptyString))
    by apply mask_char_single.
  reflexivity.
Qed.

(* ================================================================== *)
(** * Claims about [wrong_guesses] *)

Lemma processGuess_wrong (l : string) (g : HangmanGame) :
  wrong_guesses (snd (processGuess l g)) =
  wrong_guesses g + wrong_delta (fun _ => "a"%char) (Guess l) g.
Proof.
  unfold processGuess, wrong_delta. cbv beta zeta.
  destruct (negb (isalpha (lower l)) || negb (String.length (lower l) =? 1)%nat) eqn:E.
  - rewrite (proj2 (single_alpha_None _) E). simpl. lia.
  - apply guess_check_false in E as (c & Hc & Ha).
    rewrite Hc. cbn [single_alpha]. rewrite Ha.
    destruct (bool_decide (c ∈ used_letters g)) eqn:Eu.
    + apply bool_decide_eq_true in Eu.
      rewrite bool_decide_eq_false_2 by tauto. simpl. lia.
    + apply bool_decide_eq_false in Eu.
      unfold set_used. cbn [secret_word max_attempts used_letters wrong_guesses].
      destruct (contains_char c (secret_word g)) eqn:Ec; cbn [negb snd wrong_guesses].
      * apply contains_char_In, list_elem_of_In in Ec.
        rewrite bool_decide_eq_false_2 by tauto. lia.
      * assert (c ∉ list_ascii_of_string (secret_word g)) as Hn.
        { rewrite list_elem_of_In, <- contains_char_In. congruence. }
        rewrite bool_decide_eq_true_2 by tauto. reflexivity.
Qed.

Lemma exec_wrong_step (choice : list ascii -> ascii) (c : call) (g : HangmanGame) :
  is_reset c = false ->
  wrong_guesses (snd (exec choice c g)) = wrong_guesses g + wrong_delta choice c g.
Proof.
  intros Hr. destruct c as [l| | | | | |w]; try (simpl; lia).
  - pose proof (processGuess_wrong l g) as H. simpl.
    destruct (processGuess l g) as [b g'] eqn:E. simpl in *. rewrite H. reflexivity.
  - unfold exec, wrong_delta. unfold useHint.
    destruct (max_attempts g - wrong_guesses g <? HINT_COST); [simpl; lia|].
    destruct (hintPool g); simpl; lia.
  - discriminate.
Qed.

Lemma wrong_delta_nonneg (choice : list ascii -> ascii) (c : call) (g : HangmanGame) :
  0 <= wrong_delta choice c g.
Proof.
  unfold wrong_delta, HINT_COST. destruct c; try lia; repeat case_match; lia.
Qed.

(** C8: between resets, every call changes [wrong_guesses] by exactly
    [wrong_delta] (1 for a guess of a new letter absent from the word,
    [HINT_COST] for a hint that returns a letter, 0 otherwise), so along
    any sequence of calls without a reset it never decreases; a reset sets
    it to 0. *)
Theorem wrong_guesses_evolution (choice : list ascii -> ascii) :
  (forall c g, is_reset c = false ->
     wrong_guesses (snd (exec choice c g)) = wrong_guesses g + wrong_delta choice c g) /\
  (forall c g, 0 <= wrong_delta choice c g) /\
  (forall w g, wrong_guesses (snd (exec choice (Reset w) g)) = 0) /\
  (forall cs g, forallb (fun c => negb (is_reset c)) cs = true ->
     wrong_guesses g <= wrong_guesses (run choice cs g)).
Proof.
  split; [apply exec_wrong_step|].
  split; [apply wrong_delta_nonneg|].
  split; [reflexivity|].
  induction cs as [|c cs IH]; intros g H; simpl; [lia|].
  simpl in H. apply andb_true_iff in H as [Hc Hcs]. apply negb_true_iff in Hc.
  specialize (IH (snd (exec choice c g)) Hcs).
  rewrite exec_wrong_step in IH by exact Hc.
  pose proof (wrong_delta_nonneg choice c g). lia.
Qed.

(* ================================================================== *)
(** * Claims about the word source *)

Section WordChoice.

Variable word_choice : list string -> string.
Hypothesis word_choice_in : forall l, l <> [] -> In (word_choice l) l.

(** C9: [getRandomWord] resolves an unknown category to the default
    category's list (the empty list if that is missing too), raises
    [ValueError] naming the requested category exactly when the resolved
    list is empty, and otherwise returns a word of that list. *)
Theorem getRandomWord_spec (categories : gmap string (list string))
    (category_name : string) :
  getWordsForCategory categories category_name =
    match categories !! category_name with
    | Some ws => ws
    | None => default [] (categories !! DEFAULT_CATEGORY)
    end /\
  ((exists e, getRandomWord word_choice categories category_name = Err e) <->
   getWordsForCategory categories category_name = []) /\
  (forall e, getRandomWord word_choice categories category_name = Err e ->
     e = ValueError ("No words available for category '" ++ category_name ++ "'")) /\
  (getWordsForCategory categories category_name <> [] ->
   exists w, getRandomWord word_choice categories category_name = Ok w /\
             In w (getWordsForCategory categories category_name)).
Proof.
  split.
  { unfold getWordsForCategory. destruct (categories !! category_name) eqn:E.
    - rewrite E. reflexivity.
    - reflexivity. }
  unfold getRandomWord.
  destruct (getWordsForCategory categories category_name) as [|w ws] eqn:E.
  - split; [split; [reflexivity | intros _; eauto] |].
    split; [intros e He; inversion He; reflexivity | intros H; congruence].
  - split; [split; [intros [e He]; discriminate | discriminate] |].
    split; [intros e He; discriminate |].
    intros _. exists (word_choice (w :: ws)). split; [reflexivity|].
    apply word_choice_in. discriminate.
Qed.

End WordChoice.

(* ================================================================== *)
(** * Claims about reachable states *)

Lemma auto_reveal_used (w : string) (m : Z) (g : HangmanGame) :
  used_letters (newGame w m) =
    ({["r"%char]} ∪ {["s"%char]} ∪ {["t"%char]} ∪ {["l"%char]} ∪
     {["n"%char]} ∪ {["e"%char]} : gset ascii) /\
  used_letters (resetGame w g) = used_letters (newGame w m).
Proof. split; vm_compute; reflexivity. Qed.

Lemma auto_reveal_alpha (w : string) (m : Z) (x : ascii) :
  x ∈ used_letters (newGame w m) -> char_isalpha x = true.
Proof.
  rewrite (proj1 (auto_reveal_used w m (newGame w m))).
  rewrite !elem_of_union, !elem_of_singleton.
  intros H; repeat destruct H as [H|H]; subst; reflexivity.
Qed.

Lemma processGuess_used (l : string) (g : HangmanGame) (x : ascii) :
  x ∈ used_letters (snd (processGuess l g)) ->
  x ∈ used_letters g \/ single_alpha (lower l) = Some x.
Proof.
  unfold processGuess. cbv beta zeta.
  destruct (negb (isalpha (lower l)) || negb (String.length (lower l) =? 1)%nat) eqn:E;
    [auto|].
  apply guess_check_false in E as (c & Hc & Ha). rewrite Hc.
  cbn [single_alpha]. rewrite Ha.
  destruct (bool_decide (c ∈ used_letters g)); [auto|].
  destruct (negb _); cbn; rewrite elem_of_union, elem_of_singleton;
    intros [->|H]; auto.
Qed.

Section Reachable.

Variable choice : list ascii -> ascii.
Hypothesis choice_in : forall l, l <> [] -> In (choice l) l.

Lemma useHint_used (g : HangmanGame) (x : ascii) :
  x ∈ used_letters (snd (useHint choice g)) ->
  x ∈ used_letters g \/ In x (hintPool g).
Proof.
  unfold useHint.
  destruct (max_attempts g - wrong_guesses g <? HINT_COST); [auto|].
  destruct (hintPool g) as [|c p] eqn:E; [auto|].
  cbn. rewrite elem_of_union, elem_of_singleton. intros [->|H]; [|auto].
  right. exact (choice_in (c :: p) ltac:(discriminate)).
Qed.

Lemma reachable_used_alpha (g : HangmanGame) :
  reachable choice g -> forall x, x ∈ used_letters g -> char_isalpha x = true.
Proof.
  induction 1 as [w m|w g _ IH|l g _ IH|g _ IH]; intros x Hx.
  - eapply auto_reveal_alpha; eauto.
  - rewrite (proj2 (auto_reveal_used w 0 g)) in Hx. eapply auto_reveal_alpha; eauto.
  - apply processGuess_used in Hx as [Hx|Hx]; [auto|].
    apply single_alpha_Some in Hx. tauto.
  - apply useHint_used in Hx as [Hx|Hx]; [auto|].
    apply hintPool_In in Hx. tauto.
Qed.

(** C10: if the secret word has a non-alphabetic character, no state
    reached from construction or a reset by guesses and hints is won:
    guesses and hints only ever add alphabetic letters. *)
Theorem non_alpha_word_never_won (g : HangmanGame) :
  reachable choice g ->
  (exists c, In c (list_ascii_of_string (secret_word g)) /\ char_isalpha c = false) ->
  isWon g = false.
Proof.
  intros Hr (c & Hin & Ha).
  destruct (isWon g) eqn:Ew; [|reflexivity]. exfalso.
  unfold isWon in Ew. rewrite forallb_forall in Ew.
  specialize (Ew c Hin). apply bool_decide_eq_true in Ew.
  rewrite (reachable_used_alpha g Hr c Ew) in Ha. discriminate.
Qed.

End Reachable.

(* ================================================================== *)
(** * The claims at concrete inputs *)

(** C3 at the spec's scenario: "jazz", budget 6, five wrong guesses. *)
Lemma useHint_none_iff_witness :
  snd (useHint (pick_first "a"%char)
         (mkGame "jazz" 6 (used_letters (newGame "jazz" 6)) 5)) =
  mkGame "jazz" 6 (used_letters (newGame "jazz" 6)) 5.
Proof.
  apply (proj2 (useHint_none_iff (pick_first "a"%char)
                  (mkGame "jazz" 6 (used_letters (newGame "jazz" 6)) 5))).
  vm_compute. reflexivity.
Defined.

(** C4 at the spec's scenario: "jazz", the choice fixed to pick ["j"]. *)
Lemma useHint_some_spec_witness :
  wrong_guesses (snd (useHint (pick_first "a"%char) (newGame "jazz" 6))) =
  wrong_guesses (newGame "jazz" 6) + 2.
Proof.
  apply (useHint_some_spec (pick_first "a"%char) (pick_first_in "a"%char)
           (newGame "jazz" 6)
           (snd (useHint (pick_first "a"%char) (newGame "jazz" 6))) "j"%char).
  vm_compute. reflexivity.
Defined.

(** C2 (amended) on "jazz": the letter returned is [choice] of [j; a; z; z]. *)
Lemma useHint_choice_pool_witness :
  "j"%char = pick_first "a"%char (hintPool (newGame "jazz" 6)).
Proof.
  apply (useHint_choice_pool (pick_first "a"%char) (newGame "jazz" 6)
           (snd (useHint (pick_first "a"%char) (newGame "jazz" 6))) "j"%char).
  vm_compute. reflexivity.
Defined.

(** C5 on an invalid input: the guess ["1"]. *)
Lemma processGuess_noop_witness :
  processGuess "1" (newGame "jazz" 6) = (false, newGame "jazz" 6).
Proof.
  apply (proj1 (processGuess_noop "1" (newGame "jazz" 6))).
  left. vm_compute. reflexivity.
Defined.

(** C7 on "hangman": position 4 shows the used letter [n]. *)
Lemma getMaskedWord_spec_witness :
  String.get (2 * 2)%nat (getMaskedWord (newGame "hangman" 6)) =
  Some (if bool_decide ("n"%char ∈ used_letters (newGame "hangman" 6))
        then "n"%char else "_"%char).
Proof.
  apply (proj1 (proj2 (getMaskedWord_spec (pick_first "a"%char) (newGame "hangman" 6)))).
  vm_compute. reflexivity.
Defined.

(** C8 on the spec's scenario: [j], [q], a hint, [q] again. *)
Lemma wrong_guesses_evolution_witness :
  wrong_guesses (newGame "jazz" 6) <=
  wrong_guesses (run (pick_first "a"%char) [Guess "j"; Guess "q"; Hint; Guess "q"]
                   (newGame "jazz" 6)).
Proof.
  apply (proj2 (proj2 (proj2 (wrong_guesses_evolution (pick_first "a"%char))))).
  reflexivity.
Defined.

(** C9 on an unknown category of the default dictionary. *)
Lemma getRandomWord_spec_witness :
  exists w, getRandomWord (pick_first ""%string) default_categories "pets" = Ok w /\
            In w (getWordsForCategory default_categories "pets").
Proof.
  apply (getRandomWord_spec (pick_first ""%string) (pick_first_in ""%string)
           default_categories "pets").
  vm_compute. discriminate.
Defined.

(** C10 on "ice-cream" after a guess of [c]. *)
Lemma non_alpha_word_never_won_witness :
  isWon (snd (processGuess "c" (newGame "ice-cream" 6))) = false.
Proof.
  apply (non_alpha_word_never_won (pick_first "a"%char) (pick_first_in "a"%char)).
  - apply reach_guess, reach_new.
  - exists "-"%char. split; vm_compute; auto 10.
Defined.

(* ================================================================== *)
(** * Further properties of the engine *)

Lemma processGuess_frame (letter : string) (g : HangmanGame) :
  secret_word (snd (processGuess letter g)) = secret_word g /\
  max_attempts (snd (processGuess letter g)) = max_attempts g /\
  used_letters g ⊆ used_letters (snd (processGuess letter g)).
Proof.
  unfold processGuess. cbv beta zeta.
  destruct (negb (isalpha (lower letter)) || negb (String.length (lower letter) =? 1)%nat);
    [cbn; repeat split; set_solver|].
  destruct (lower letter) as [|c [|d s]]; cbn; try (repeat split; set_solver).
  destruct (bool_decide (c ∈ used_letters g)); [cbn; repeat split; set_solver|].
  destruct (negb _); cbn; repeat split; set_solver.
Qed.

Lemma useHint_frame (choice : list ascii -> ascii) (g : HangmanGame) :
  secret_word (snd (useHint choice g)) = secret_word g /\
  max_attempts (snd (useHint choice g)) = max_attempts g /\
  used_letters g ⊆ used_letters (snd (useHint choice g)).
Proof.
  unfold useHint.
  destruct (max_attempts g - wrong_guesses g <? HINT_COST); [cbn; repeat split; set_solver|].
  destruct (hintPool g); cbn; repeat split; set_solver.
Qed.

Lemma exec_frame (choice : list ascii -> ascii) (c : call) (g : HangmanGame) :
  is_reset c = false ->
  secret_word (snd (exec choice c g)) = secret_word g /\
  max_attempts (snd (exec choice c g)) = max_attempts g /\
  used_letters g ⊆ used_letters (snd (exec choice c g)).
Proof.
  intros Hr. destruct c as [l| | | | | |w]; try discriminate;
    try (cbn; repeat split; set_solver).
  - pose proof (processGuess_frame l g) as H. cbn.
    destruct (processGuess l g). exact H.
  - pose proof (useHint_frame choice g) as H. cbn.
    destruct (useHint choice g). exact H.
Qed.

Lemma run_frame (choice : list ascii -> ascii) (cs : list call) (g : HangmanGame) :
  forallb (fun c => negb (is_reset c)) cs = true ->
  secret_word (run choice cs g) = secret_word g /\
  max_attempts (run choice cs g) = max_attempts g /\
  used_letters g ⊆ used_letters (run choice cs g) /\
  wrong_guesses g <= wrong_guesses (run choice cs g).
Proof.
  revert g. induction cs as [|c cs IH]; intros g H; cbn; [repeat split; set_solver || lia|].
  apply andb_true_iff in H as [Hc Hcs]. apply negb_true_iff in Hc.
  destruct (IH (snd (exec choice c g)) Hcs) as (Hs & Hm & Hu & Hw).
  destruct (exec_frame choice c g Hc) as (Hs1 & Hm1 & Hu1).
  rewrite exec_wrong_step in Hw by exact Hc.
  pose proof (wrong_delta_nonneg choice c g).
  repeat split; [congruence | congruence | set_solver | lia].
Qed.

(** Along any sequence of calls without a reset, the secret word and the
    budget stay as they are and no used letter is ever removed. *)
Theorem run_keeps_word_and_used (choice : list ascii -> ascii)
    (cs : list call) (g : HangmanGame) :
  forallb (fun c => negb (is_reset c)) cs = true ->
  secret_word (run choice cs g) = secret_word g /\
  max_attempts (run choice cs g) = max_attempts g /\
  used_letters g ⊆ used_letters (run choice cs g).
Proof. intros H. destruct (run_frame choice cs g H) as (? & ? & ? & _). auto. Qed.

(** A won round stays won and a lost round stays lost along any sequence
    of calls without a reset. *)
Theorem won_and_lost_are_stable (choice : list ascii -> ascii)
    (cs : list call) (g : HangmanGame) :
  forallb (fun c => negb (is_reset c)) cs = true ->
  (isWon g = true -> isWon (run choice cs g) = true) /\
  (isLost g = true -> isLost (run choice cs g) = true).
Proof.
  intros H. destruct (run_frame choice cs g H) as (Hs & Hm & Hu & Hw). split.
  - unfold isWon. rewrite Hs, !forallb_forall. intros Hw' c Hin.
    specialize (Hw' c Hin). apply bool_decide_eq_true in Hw'.
    apply bool_decide_eq_true. set_solver.
  - unfold isLost. rewrite Hm, !Z.leb_le. lia.
Qed.

(** A guess of a new letter (one alphabetic character after lowercasing,
    not yet used) adds it to the used letters, keeps word and budget, and
    returns [true] exactly when the letter occurs in the word; only a
    [false] answer costs one wrong guess. *)
Theorem processGuess_new_letter (letter : string) (c : ascii) (g : HangmanGame) :
  single_alpha (lower letter) = Some c -> c ∉ used_letters g ->
  let '(b, g') := processGuess letter g in
  used_letters g' = {[c]} ∪ used_letters g /\
  secret_word g' = secret_word g /\ max_attempts g' = max_attempts g /\
  (b = true <-> In c (list_ascii_of_string (secret_word g))) /\
  wrong_guesses g' = (if b then wrong_guesses g else wrong_guesses g + 1).
Proof.
  intros Hs Hn. apply single_alpha_Some in Hs as [Hc Ha].
  unfold processGuess. cbv beta zeta. rewrite Hc. cbn [isalpha all_alpha String.length].
  rewrite Ha. cbn [andb negb orb Nat.eqb].
  rewrite bool_decide_eq_false_2 by exact Hn.
  unfold set_used. cbn [secret_word max_attempts used_letters wrong_guesses].
  destruct (contains_char c (secret_word g)) eqn:E; cbn.
  - repeat split; auto. intros _. apply contains_char_In. exact E.
  - repeat split; try discriminate.
    intros Hin. apply contains_char_In in Hin. congruence.
Qed.

(** A hint that returns a letter never takes [wrong_guesses] past
    [max_attempts]. *)
Theorem useHint_stays_within_budget (choice : list ascii -> ascii)
    (g g' : HangmanGame) (l : ascii) :
  useHint choice g = (Some l, g') -> wrong_guesses g' <= max_attempts g'.
Proof.
  unfold useHint.
  destruct (Z.ltb_spec (max_attempts g - wrong_guesses g) HINT_COST); [discriminate|].
  destruct (hintPool g); [discriminate|].
  intros Heq. inversion Heq; subst. cbn. unfold HINT_COST in *. lia.
Qed.

(** On a won round a hint reveals nothing and changes nothing. *)
Theorem useHint_when_won (choice : list ascii -> ascii) (g : HangmanGame) :
  isWon g = true -> useHint choice g = (None, g).
Proof.
  intros Hw. assert (hintPool g = []) as Hnil.
  { apply hintPool_nil. intros c Hin _. unfold isWon in Hw.
    rewrite forallb_forall in Hw. specialize (Hw c Hin).
    apply bool_decide_eq_true in Hw. exact Hw. }
  unfold useHint. rewrite Hnil.
  destruct (_ <? _); reflexivity.
Qed.

Lemma char_lower_idem (c : ascii) : char_lower (char_lower c) = char_lower c.
Proof. destruct c as [[] [] [] [] [] [] [] []]; reflexivity. Qed.

Lemma lower_idem (s : string) : lower (lower s) = lower s.
Proof. induction s as [|c s IH]; cbn; [reflexivity|]. rewrite char_lower_idem, IH. reflexivity. Qed.



(** Guessing is case-insensitive: an input and its lowercase form are
    the same guess. *)
Theorem processGuess_case_insensitive (letter : string) (g : HangmanGame) :
  processGuess (lower letter) g = processGuess letter g.
Proof. unfold processGuess. cbv beta zeta. rewrite lower_idem. reflexivity. Qed.

Section Lowercase.

Variable choice : list ascii -> ascii.
Hypothesis choice_in : forall l, l <> [] -> In (choice l) l.


End Lowercase.

(** A fresh game stores the word lowercased and the budget as given, has no
    wrong guesses and exactly the letters r, s, t, l, n, e used; it is won
    at once exactly when every character of the lowercased word is one of
    them, and lost at once exactly when the budget is 0 or less. *)
Theorem newGame_initial (w : string) (m : Z) :
  secret_word (newGame w m) = lower w /\ max_attempts (newGame w m) = m /\
  wrong_guesses (newGame w m) = 0 /\
  (forall x, x ∈ used_letters (newGame w m) <-> In x AUTO_REVEAL_LETTERS) /\
  (isWon (newGame w m) = true <->
     forall c, In c (list_ascii_of_string (lower w)) -> In c AUTO_REVEAL_LETTERS) /\
  (isLost (newGame w m) = true <-> m <= 0).
Proof.
  assert (forall x, x ∈ used_letters (newGame w m) <-> In x AUTO_REVEAL_LETTERS) as Hu.
  { intros x. rewrite (proj1 (auto_reveal_used w m (newGame w m))).
    rewrite !elem_of_union, !elem_of_singleton. cbn. split.
    - intros H; repeat destruct H as [H|H]; subst; auto 10.
    - intros H; repeat destruct H as [H|H]; subst; tauto. }
  split; [reflexivity|]. split; [reflexivity|]. split; [reflexivity|].
  split; [exact Hu|]. split.
  - unfold isWon. rewrite forallb_forall. cbn [secret_word newGame _autoRevealCommonLetters set_used].
    split; intros H c Hin; specialize (H c Hin).
    + apply Hu. apply bool_decide_eq_true in H. exact H.
    + apply bool_decide_eq_true. apply Hu. exact H.
  - unfold isLost. cbn. rewrite Z.leb_le. lia.
Qed.

(** Once the round is won, the masked word shows every character of the
    secret word, separated by single spaces. *)
Theorem getMaskedWord_when_won (g : HangmanGame) :
  isWon g = true ->
  getMaskedWord g =
  String.concat " " (map (fun c => String c EmptyString)
                         (list_ascii_of_string (secret_word g))).
Proof.
  intros Hw. unfold getMaskedWord. f_equal. apply map_ext_in.
  intros c Hin. unfold isWon in Hw. rewrite forallb_forall in Hw.
  unfold mask_char. rewrite (Hw c Hin). reflexivity.
Qed.

(* ================================================================== *)
(** * The word bank, the CLI and the window's game control *)

Lemma default_categories_lookup (category_name : string) :
  exists k, default_categories !! k =
            Some (getWordsForCategory default_categories category_name).
Proof.
  unfold getWordsForCategory.
  destruct (default_categories !! category_name) eqn:E.
  - exists category_name. rewrite E. reflexivity.
  - exists DEFAULT_CATEGORY. vm_compute. reflexivity.
Qed.

Lemma default_bank_check :
  forallb (fun kv : string * list string =>
             negb (Nat.eqb (List.length kv.2) 0) &&
             forallb (fun w : string => isalpha w && bool_decide (lower w = w)) kv.2)
          (map_to_list default_categories) = true.
Proof. vm_compute. reflexivity. Qed.

Lemma default_categories_words (k : string) (ws : list string) :
  default_categories !! k = Some ws ->
  ws <> [] /\ (forall w, In w ws -> isalpha w = true /\ lower w = w).
Proof.
  intros H. apply elem_of_map_to_list in H. apply list_elem_of_In in H.
  pose proof default_bank_check as Hall.
  rewrite forallb_forall in Hall. specialize (Hall _ H).
  apply andb_true_iff in Hall as [Hne Hws]. split.
  - intros Hnil. subst ws. discriminate Hne.
  - intros w Hw. rewrite forallb_forall in Hws. specialize (Hws w Hw).
    apply andb_true_iff in Hws as [Ha Hl]. apply bool_decide_eq_true in Hl. auto.
Qed.

Section DefaultBank.

Variable word_choice : list string -> string.
Hypothesis word_choice_in : forall l, l <> [] -> In (word_choice l) l.

(** With the built-in word lists, [getRandomWord] never raises, whatever
    the category name, and the word it returns is non-empty, all letters
    and already lowercase. *)
Theorem default_bank_words_are_letters (category_name : string) :
  exists w, getRandomWord word_choice default_categories category_name = Ok w /\
            isalpha w = true /\ lower w = w.
Proof.
  destruct (default_categories_lookup category_name) as [k Hk].
  destruct (default_categories_words k _ Hk) as [Hne Hws].
  unfold getRandomWord.
  destruct (getWordsForCategory default_categories category_name) as [|w0 ws] eqn:E;
    [congruence|].
  exists (word_choice (w0 :: ws)). split; [reflexivity|].
  apply Hws, word_choice_in. discriminate.
Qed.

(** The CLI built on the built-in word lists and [createGameInstance]
    starts a round on a word of the "general" list with the default budget,
    and that round is not finished at the start. *)
Theorem cli_default_start :
  exists w, In w (default [] (default_categories !! DEFAULT_CATEGORY)) /\
    HangmanCli_init createGameInstance word_choice default_categories =
      Ok (newGame w DEFAULT_MAX_ATTEMPTS) /\
    isFinished (newGame w DEFAULT_MAX_ATTEMPTS) = false.
Proof.
  assert (getWordsForCategory default_categories DEFAULT_CATEGORY =
          default [] (default_categories !! DEFAULT_CATEGORY)) as Hg
    by (vm_compute; reflexivity).
  assert (forallb (fun w => negb (isFinished (newGame w DEFAULT_MAX_ATTEMPTS)))
            (default [] (default_categories !! DEFAULT_CATEGORY)) = true) as Hf
    by (vm_compute; reflexivity).
  rewrite forallb_forall in Hf.
  unfold HangmanCli_init, getRandomWord. rewrite Hg.
  destruct (default [] (default_categories !! DEFAULT_CATEGORY)) as [|w0 ws] eqn:E;
    [vm_compute in E; discriminate|].
  assert (In (word_choice (w0 :: ws)) (w0 :: ws)) as Hin
    by (apply word_choice_in; discriminate).
  exists (word_choice (w0 :: ws)). split; [exact Hin|]. split; [reflexivity|].
  apply negb_true_iff, Hf, Hin.
Qed.

End DefaultBank.

(** When the CLI loop ends it ends on a finished round of the same word and
    budget, with no used letter lost, and prints the win line exactly when
    the round is won. *)
Theorem runGameLoop_ends_finished (inputs : list string) (g g' : HangmanGame)
    (msg : string) :
  runGameLoop inputs g = Some (g', msg) ->
  isFinished g' = true /\ secret_word g' = secret_word g /\
  max_attempts g' = max_attempts g /\ used_letters g ⊆ used_letters g' /\
  msg = (if isWon g' then "You won! The word was: " ++ secret_word g'
         else "You lost! The word was: " ++ secret_word g')%string.
Proof.
  revert g. induction inputs as [|i rest IH]; intros g; cbn;
    destruct (isFinished g) eqn:Ef; try discriminate.
  - intros Heq. inversion Heq; subst. repeat split; auto; try set_solver.
  - intros Heq. inversion Heq; subst. repeat split; auto; try set_solver.
  - intros H. destruct (IH _ H) as (Hf & Hs & Hm & Hu & Hmsg).
    destruct (processGuess_frame (strip i) g) as (Hs1 & Hm1 & Hu1).
    repeat split; auto; try congruence; try set_solver.
Qed.

Lemma processGuess_wrong_le (letter : string) (g : HangmanGame) :
  wrong_guesses (snd (processGuess letter g)) <= wrong_guesses g + 1.
Proof.
  rewrite processGuess_wrong. unfold wrong_delta.
  repeat case_match; lia.
Qed.

Lemma useHint_some_wrong (choice : list ascii -> ascii) (g g' : HangmanGame) (l : ascii) :
  useHint choice g = (Some l, g') ->
  wrong_guesses g' = wrong_guesses g + HINT_COST /\ max_attempts g' = max_attempts g /\
  HINT_COST <= max_attempts g - wrong_guesses g.
Proof.
  unfold useHint.
  destruct (Z.ltb_spec (max_attempts g - wrong_guesses g) HINT_COST); [discriminate|].
  destruct (hintPool g); [discriminate|].
  intros Heq. inversion Heq; subst. cbn. auto.
Qed.

Lemma win_points_nonneg (g : HangmanGame) :
  wrong_guesses g <= max_attempts g -> 0 <= win_points g.
Proof. intros H. unfold win_points. apply Z.mul_nonneg_nonneg; lia. Qed.

(** In the window, a guess or a hint never lowers the score (a win after a
    live round awards non-negative points), and once the round is finished
    both handlers leave game and score as they are. *)
Theorem ui_score_never_decreases (choice : list ascii -> ascii) (letter : string)
    (a : HangmanApp) :
  score a <= score (_onGuess letter a) /\
  score a <= score (_onHintButtonClicked choice a) /\
  (forall g, app_game a = Some g -> isFinished g = true ->
     _onGuess letter a = a /\ _onHintButtonClicked choice a = a).
Proof.
  unfold _onGuess, _onHintButtonClicked.
  destruct (app_game a) as [g|] eqn:Eg; [|split; [lia | split; [lia | discriminate]]].
  destruct (isFinished g) eqn:Ef; [split; [lia | split; [lia | auto]]|].
  assert (wrong_guesses g < max_attempts g) as Hlive.
  { unfold isFinished, isLost in Ef. apply orb_false_iff in Ef as [_ Hl].
    apply Z.leb_gt in Hl. exact Hl. }
  split; [|split; [|intros g0 Hg0; inversion Hg0; subst; congruence]].
  - destruct (str_in_used (lower letter) (used_letters g)); [lia|].
    pose proof (processGuess_wrong_le letter g) as Hw.
    destruct (processGuess_frame letter g) as (_ & Hm & _).
    destruct (processGuess letter g) as [b g'] eqn:Ep. cbn in Hw, Hm.
    unfold _refreshUiAfterAction. cbn.
    destruct (isWon g'); cbn; [|lia].
    pose proof (win_points_nonneg g' ltac:(lia)). lia.
  - destruct (useHint choice g) as [[l|] g'] eqn:Eh; cbn; [|lia].
    destruct (useHint_some_wrong choice g g' l Eh) as (Hw & Hm & Hb).
    unfold _refreshUiAfterAction. cbn.
    destruct (isWon g'); cbn; [|lia].
    pose proof (win_points_nonneg g' ltac:(lia)). lia.
Qed.

(* ================================================================== *)
(** * The further properties at concrete inputs *)

Lemma run_keeps_word_and_used_witness :
  secret_word (run (pick_first "a"%char) [Guess "j"; Hint; MaskedWord; Guess "Q"]
                 (newGame "jazz" 6)) = "jazz".
Proof.
  apply (run_keeps_word_and_used (pick_first "a"%char)
           [Guess "j"; Hint; MaskedWord; Guess "Q"] (newGame "jazz" 6)).
  reflexivity.
Defined.

Lemma won_and_lost_are_stable_witness :
  isWon (run (pick_first "a"%char) [Guess "x"; Hint] (newGame "test" 6)) = true.
Proof.
  apply (won_and_lost_are_stable (pick_first "a"%char) [Guess "x"; Hint] (newGame "test" 6));
    vm_compute; reflexivity.
Defined.

Lemma processGuess_new_letter_witness :
  let '(b, g') := processGuess "Q" (newGame "jazz" 6) in
  used_letters g' = {["q"%char]} ∪ used_letters (newGame "jazz" 6) /\
  secret_word g' = secret_word (newGame "jazz" 6) /\
  max_attempts g' = max_attempts (newGame "jazz" 6) /\
  (b = true <-> In "q"%char (list_ascii_of_string (secret_word (newGame "jazz" 6)))) /\
  wrong_guesses g' = (if b then wrong_guesses (newGame "jazz" 6)
                      else wrong_guesses (newGame "jazz" 6) + 1).
Proof.
  apply (processGuess_new_letter "Q" "q"%char (newGame "jazz" 6)).
  - reflexivity.
  - vm_compute. intros H. discriminate H.
Defined.

Lemma useHint_stays_within_budget_witness :
  wrong_guesses (snd (useHint (pick_first "a"%char) (newGame "jazz" 2))) <=
  max_attempts (snd (useHint (pick_first "a"%char) (newGame "jazz" 2))).
Proof.
  apply (useHint_stays_within_budget (pick_first "a"%char) (newGame "jazz" 2) _ "j"%char).
  vm_compute. reflexivity.
Defined.

Lemma useHint_when_won_witness :
  useHint (pick_first "a"%char) (newGame "test" 6) = (None, newGame "test" 6).
Proof. apply useHint_when_won. vm_compute. reflexivity. Defined.


Lemma getMaskedWord_when_won_witness :
  getMaskedWord (newGame "test" 6) = "t e s t".
Proof. apply getMaskedWord_when_won. vm_compute. reflexivity. Defined.

Lemma default_bank_words_are_letters_witness :
  exists w, getRandomWord (pick_first ""%string) default_categories "winter 2025" = Ok w /\
            isalpha w = true /\ lower w = w.
Proof.
  apply (default_bank_words_are_letters (pick_first ""%string) (pick_first_in ""%string)).
Defined.

Lemma cli_default_start_witness :
  exists w, In w (default [] (default_categories !! DEFAULT_CATEGORY)) /\
    HangmanCli_init createGameInstance (pick_first ""%string) default_categories =
      Ok (newGame w DEFAULT_MAX_ATTEMPTS) /\
    isFinished (newGame w DEFAULT_MAX_ATTEMPTS) = false.
Proof. apply (cli_default_start (pick_first ""%string) (pick_first_in ""%string)). Defined.

Lemma runGameLoop_ends_finished_witness :
  isFinished (newGame "jazz" 6) = false /\
  runGameLoop ["j"; " A "; "z"] (newGame "jazz" 6) =
    Some (snd (processGuess "z" (snd (processGuess "a" (snd (processGuess "j" (newGame "jazz" 6)))))),
          "You won! The word was: jazz") /\
  isFinished (snd (processGuess "z" (snd (processGuess "a"
                (snd (processGuess "j" (newGame "jazz" 6))))))) = true.
Proof.
  split; [reflexivity|]. split; [vm_compute; reflexivity|].
  apply (runGameLoop_ends_finished ["j"; " A "; "z"] (newGame "jazz" 6) _
           "You won! The word was: jazz").
  vm_compute. reflexivity.
Defined.
